(** * Fortress-api: a shallow embedding of the Todo repository, its
    Redis cache-aside layer, the service and the create endpoint.

    Conventions of the model:
    - Python exceptions are the constructors of [exn]; an operation is a
      state-and-exception computation [M A] over a [world] holding the
      committed database rows, the SQLAlchemy session's identity map,
      the Redis client and server, and the wall clock.
    - Strings coming from JSON are lists of Unicode code points
      ([list N]); Redis keys and patterns are ASCII [string]s.
    - Metric values are not modelled; only the label check that
      prometheus_client performs in [.labels(...)] is, because it can
      raise. *)

From stdpp Require Import base gmap strings list pretty sorting.
From Stdlib Require Import ZArith Ascii.

Local Open Scope string_scope.

(** ** Python exceptions and the effect monad *)

Inductive exn :=
| ValueError        (** e.g. prometheus_client: labels on an unlabelled metric *)
| NameError         (** a name not bound in the module *)
| AttributeError    (** e.g. attribute access on [None] or on a dict *)
| ConnectionError   (** Redis server unreachable *)
| JSONDecodeError   (** json.loads on a non-JSON value *)
| TypeError         (** e.g. datetime minus None *)
| DBError.          (** an error raised by the database, the driver or the ORM *)

Inductive result (A : Type) :=
| Ok (a : A)
| Raise (e : exn).
Arguments Ok {A} a.
Arguments Raise {A} e.

(** JSON text as code points. *)
Abbreviation ustr := (list N).

(** The code points of an ASCII literal. *)
Fixpoint u (s : string) : list N :=
  match s with
  | EmptyString => []
  | String c s' => Ascii.N_of_ascii c :: u s'
  end.

(** ** The ORM entity (src/app/domain/todo/models.py) *)

Module Todo.

(** [datetime.isoformat()] of a timestamp. *)
Inductive isoformat := Iso (ts : Z).

Record t := mk {
  id : Z;
  title : ustr;
  description : option ustr;
  is_completed : bool;
  priority : ustr;
  created_at : Z;
  updated_at : Z
}.

(** The dictionary produced by [Todo.to_dict]. *)
Record dict := mkdict {
  d_id : Z;
  d_title : ustr;
  d_description : option ustr;
  d_is_completed : bool;
  d_priority : ustr;
  d_created_at : isoformat;
  d_updated_at : isoformat
}.

Definition to_dict (x : t) : dict :=
  mkdict (id x) (title x) (description x) (is_completed x) (priority x)
         (Iso (created_at x)) (Iso (updated_at x)).

Definition with_updated_at (x : t) (ts : Z) : t :=
  mk (id x) (title x) (description x) (is_completed x) (priority x)
     (created_at x) ts.

Definition with_is_completed (x : t) (b : bool) : t :=
  mk (id x) (title x) (description x) b (priority x)
     (created_at x) (updated_at x).

End Todo.

(** A Python value the repository can hand back for a todo: the mapped
    ORM entity, or the plain dict that [json.loads] rebuilds from the
    cache. *)
Inductive todo_value :=
| Entity (x : Todo.t)
| Mapping (d : Todo.dict).

(** A value stored in Redis: the text [json.dumps] wrote for a dict, or
    bytes that are not valid JSON (written by some other client). *)
Inductive blob :=
| JsonText (d : Todo.dict)
| RawBytes (s : string).

(** ** The world *)

Record world := mkWorld {
  w_db : gmap Z Todo.t;      (** committed rows of table [todos] *)
  w_dirty : gmap Z Todo.t;   (** identity-map objects not yet flushed *)
  w_pending : gset Z;        (** objects of [session.add]: INSERTed at the flush *)
  w_deleted : gset Z;        (** rows marked by [session.delete] *)
  w_next_id : Z;             (** next value of the [id] sequence *)
  w_clock : Z;               (** [datetime.now()] / SQL [now()] *)
  w_client : bool;           (** global [redis_client] is not None *)
  w_redis_up : bool;         (** the Redis server is reachable *)
  w_redis : gmap string blob (** Redis key space *)
}.

Definition set_db (w : world) (db : gmap Z Todo.t) (dirty : gmap Z Todo.t)
    (pending deleted : gset Z) : world :=
  mkWorld db dirty pending deleted (w_next_id w) (w_clock w) (w_client w)
          (w_redis_up w) (w_redis w).

Definition set_redis (w : world) (kv : gmap string blob) : world :=
  mkWorld (w_db w) (w_dirty w) (w_pending w) (w_deleted w) (w_next_id w) (w_clock w)
          (w_client w) (w_redis_up w) kv.

Definition set_next_id (w : world) (n : Z) : world :=
  mkWorld (w_db w) (w_dirty w) (w_pending w) (w_deleted w) n (w_clock w)
          (w_client w) (w_redis_up w) (w_redis w).

Definition M (A : Type) : Type := world -> result A * world.

Global Instance M_ret : MRet M := fun A a w => (Ok a, w).
Global Instance M_bind : MBind M := fun A B k m w =>
  match m w with
  | (Ok a, w') => k a w'
  | (Raise e, w') => (Raise e, w')
  end.

Definition raise {A} (e : exn) : M A := fun w => (Raise e, w).

Definition get_world : M world := fun w => (Ok w, w).
Definition put_world (w' : world) : M unit := fun _ => (Ok (), w').

(** [try: m except Exception: h]. *)
Definition try_except {A} (m : M A) (h : exn -> M A) : M A := fun w =>
  match m w with
  | (Raise e, w') => h e w'
  | r => r
  end.

(** ** prometheus_client (src/app/core/metrics.py) *)

Record metric := mkMetric { metric_name : string; labelnames : list string }.

(** [metric.labels(name=value, ...)]: raises ValueError when the metric was
    declared without label names, or when the keyword names differ from
    the declared ones. *)
Definition labels (m : metric) (keys : list string) : M unit :=
  match labelnames m with
  | [] => raise ValueError
  | ln => if bool_decide (keys ⊆ ln /\ ln ⊆ keys) then mret () else raise ValueError
  end.

Definition cache_operations_in_progress : metric :=
  mkMetric "cache_operations_in_progress" [].
Definition db_queries_total : metric :=
  mkMetric "db_queries_total" ["operation"; "table"].
Definition db_query_duration_seconds : metric :=
  mkMetric "db_query_duration_seconds" ["operation"; "table"].
Definition business_operations_duration_seconds : metric :=
  mkMetric "business_operations_duration_seconds" ["operation"].

Definition record_db_query : M unit :=
  labels db_queries_total ["operation"; "table"];;
  labels db_query_duration_seconds ["operation"; "table"].

(** ** The Redis server, as the redis-py client sees it *)

(** Glob matching of Redis [KEYS], for the metacharacters [*] (any run
    of characters) and [?] (any single character) only: Redis also reads
    [[...]] classes and backslash escapes, which this function does not
    model.  The only pattern the code passes is ["todo:*"], which uses
    neither. *)
Fixpoint glob (p s : string) : bool :=
  match p with
  | EmptyString => match s with EmptyString => true | _ => false end
  | String c p' =>
      if Ascii.eqb c "*"%char then
        (fix star (s : string) : bool :=
           glob p' s || match s with
                        | EmptyString => false
                        | String _ s' => star s'
                        end) s
      else match s with
           | EmptyString => false
           | String x s' => (Ascii.eqb c "?"%char || Ascii.eqb x c) && glob p' s'
           end
  end.

(** Every command first goes through the global client: [None.get(...)]
    raises AttributeError, an unreachable server ConnectionError. *)
Definition redis_conn : M unit := fun w =>
  if negb (w_client w) then (Raise AttributeError, w)
  else if negb (w_redis_up w) then (Raise ConnectionError, w)
  else (Ok (), w).

Definition redis_cmd_get (k : string) : M (option blob) :=
  redis_conn;; w ← get_world; mret (w_redis w !! k).

(** [SETEX]; the expiry itself is not modelled. *)
Definition redis_cmd_setex (k : string) (ttl : Z) (v : blob) : M unit :=
  redis_conn;; w ← get_world; put_world (set_redis w (<[k := v]> (w_redis w))).

Definition redis_cmd_keys (pattern : string) : M (list string) :=
  redis_conn;; w ← get_world;
  mret (filter (fun k => glob pattern k = true) (map fst (map_to_list (w_redis w)))).

(** [DEL k1 k2 ...]: the number of keys that existed. *)
Definition redis_cmd_delete (ks : list string) : M Z :=
  redis_conn;; w ← get_world;
  put_world (set_redis w (filter (fun kv => kv.1 ∉ ks) (w_redis w)));;
  mret (Z.of_nat (length (filter (fun k => is_Some (w_redis w !! k)) ks))).

(** [EXISTS k1 k2 ...]: the number of given keys that exist. *)
Definition redis_cmd_exists (ks : list string) : M Z :=
  redis_conn;; w ← get_world;
  mret (Z.of_nat (length (filter (fun k => is_Some (w_redis w !! k)) ks))).

(** Truthiness of the bytes [redis.get] returns. *)
Definition blob_truthy (b : blob) : bool :=
  match b with
  | JsonText _ => true
  | RawBytes s => negb (String.eqb s "")
  end.

Definition json_loads (b : blob) : M todo_value :=
  match b with
  | JsonText d => mret (Mapping d)
  | RawBytes _ => raise JSONDecodeError
  end.

(** ** Cache helpers (src/app/infrastructure/redis.py) *)

Module Redis.

Definition get_key (key prefix : string) : string := prefix +:+ ":" +:+ key.

(** [record_cache_hit] and [record_cache_miss] are called in [get] but
    are not imported into redis.py (only defined in metrics.py): each
    call raises NameError. *)
Definition record_cache_hit : M unit := raise NameError.
Definition record_cache_miss : M unit := raise NameError.

Definition get (key : string) (prefix : string) : M (option todo_value) :=
  let cache_key := get_key key prefix in
  labels cache_operations_in_progress ["operation"];;
  try_except
    (value ← redis_cmd_get cache_key;
     labels cache_operations_in_progress ["operation"];;
     match value with
     | Some b =>
         if blob_truthy b then
           record_cache_hit;;
           v ← json_loads b;
           mret (Some v)
         else record_cache_miss;; mret None
     | None => record_cache_miss;; mret None
     end)
    (fun _ => labels cache_operations_in_progress ["operation"];; mret None).

Definition set (key : string) (value : Todo.dict) (prefix : string) (ttl : Z)
    : M bool :=
  let cache_key := get_key key prefix in
  labels cache_operations_in_progress ["operation"];;
  try_except
    (let serialized_value := JsonText value in
     redis_cmd_setex cache_key ttl serialized_value;;
     labels cache_operations_in_progress ["operation"];;
     mret true)
    (fun _ => labels cache_operations_in_progress ["operation"];; mret false).

Definition delete (key : string) (prefix : string) : M bool :=
  let cache_key := get_key key prefix in
  try_except (redis_cmd_delete [cache_key];; mret true) (fun _ => mret false).

(** [exists] (a keyword here, hence the underscore). *)
Definition exists_ (key : string) (prefix : string) : M bool :=
  let cache_key := get_key key prefix in
  try_except (n ← redis_cmd_exists [cache_key]; mret (0 <? n)%Z) (fun _ => mret false).

Definition clear_pattern (pattern : string) : M Z :=
  try_except
    (keys ← redis_cmd_keys pattern;
     match keys with
     | [] => mret 0%Z
     | _ => deleted ← redis_cmd_delete keys; mret deleted
     end)
    (fun _ => mret 0%Z).

End Redis.

(** ** The SQLAlchemy session (autoflush off, expire_on_commit off)
    over asyncpg and PostgreSQL *)

(** asyncpg encodes a parameter bound to an INTEGER ([$n::INTEGER]) as a
    32-bit integer and raises DataError for a value outside that range. *)
Definition int32_ok (n : Z) : bool := (-2147483648 <=? n)%Z && (n <=? 2147483647)%Z.

(** A string PostgreSQL can hold: no NUL character (rejected by the
    server) and no lone surrogate (the driver cannot encode it as UTF-8). *)
Definition text_storable (s : ustr) : bool :=
  forallb (fun c => negb (c =? 0)%N && negb ((55296 <=? c)%N && (c <=? 57343)%N)) s.

(** Binding a string parameter. *)
Definition bind_text (s : ustr) : M unit :=
  if text_storable s then mret () else raise DBError.

(** The column types of [todos] (models.py): [title] VARCHAR(255),
    [description] VARCHAR(1000), [priority] VARCHAR(20); a longer value,
    counted in characters, or one that is not storable text makes the
    INSERT or UPDATE fail. *)
Definition row_storable (x : Todo.t) : bool :=
  text_storable (Todo.title x) && (length (Todo.title x) <=? 255)%nat &&
  match Todo.description x with
  | Some d => text_storable d && (length d <=? 1000)%nat
  | None => true
  end &&
  text_storable (Todo.priority x) && (length (Todo.priority x) <=? 20)%nat.

(** What a primary-key SELECT hands back: the identity-map object when
    the session holds one, else the committed row. *)
Definition load_view (w : world) (i : Z) : option Todo.t :=
  match w_dirty w !! i with
  | Some x => Some x
  | None => w_db w !! i
  end.

(** [select(Todo).where(Todo.id == id)]: the id is bound as an INTEGER. *)
Definition select_by_id (i : Z) : M (option Todo.t) :=
  if int32_ok i then w ← get_world; mret (load_view w i) else raise DBError.

(** [session.add(obj)] of a new object: it becomes pending, and the
    flush INSERTs it. *)
Definition session_add (x : Todo.t) : M unit :=
  w ← get_world;
  put_world (set_db w (w_db w) (<[Todo.id x := x]> (w_dirty w))
                    ({[Todo.id x]} ∪ w_pending w) (w_deleted w)).

(** An attribute assignment on a loaded object: it becomes dirty, and
    the flush UPDATEs its row. *)
Definition session_modify (x : Todo.t) : M unit :=
  w ← get_world;
  put_world (set_db w (w_db w) (<[Todo.id x := x]> (w_dirty w)) (w_pending w) (w_deleted w)).

Definition session_delete (x : Todo.t) : M unit :=
  w ← get_world;
  put_world (set_db w (w_db w) (w_dirty w) (w_pending w) ({[Todo.id x]} ∪ w_deleted w)).

(** [session.commit()]: flush pending and dirty objects and deletions in
    one transaction.  It fails, committing nothing, when a written row
    does not fit its columns or a pending object's primary key is taken
    (IntegrityError). *)
Definition session_commit : M unit :=
  w ← get_world;
  if forallb (fun kv => row_storable kv.2) (map_to_list (w_dirty w)) &&
     forallb (fun i => negb (bool_decide (is_Some (w_db w !! i)))) (elements (w_pending w))
  then put_world (set_db w (filter (fun kv => kv.1 ∉ w_deleted w) (w_dirty w ∪ w_db w)) ∅ ∅ ∅)
  else raise DBError.

(** [session.refresh(obj)]: reload the row's attributes. *)
Definition session_refresh (i : Z) : M Todo.t :=
  w ← get_world;
  match w_db w !! i with
  | Some x => put_world (set_db w (w_db w) (delete i (w_dirty w)) (w_pending w) (w_deleted w));; mret x
  | None => raise DBError
  end.

(** [datetime.now()] and the server's [now()]. *)
Definition now : M Z := w ← get_world; mret (w_clock w).

(** The SERIAL sequence behind [id], an INTEGER column: past 2147483647
    [nextval] fails.  The model draws the value when the object is built;
    the database draws it during the INSERT. *)
Definition nextval : M Z :=
  w ← get_world;
  if (w_next_id w <=? 2147483647)%Z
  then put_world (set_next_id w (w_next_id w + 1)%Z);; mret (w_next_id w)
  else raise DBError.

(** A value of the update dictionary. *)
Inductive pyval :=
| PyNone
| PyStr (s : ustr)
| PyBool (b : bool).

(** [hasattr(todo, key)] on the mapped entity and on a plain dict. *)
Definition entity_attrs : list string :=
  ["id"; "title"; "description"; "is_completed"; "priority"; "created_at";
   "updated_at"; "to_dict"; "update"; "metadata"; "registry";
   "__tablename__"; "__table__"; "__mapper__"].
Definition dict_attrs : list string :=
  ["clear"; "copy"; "fromkeys"; "get"; "items"; "keys"; "pop"; "popitem";
   "setdefault"; "update"; "values"].

Definition hasattr (v : todo_value) (key : string) : bool :=
  match v with
  | Entity _ => bool_decide (key ∈ entity_attrs)
  | Mapping _ => bool_decide (key ∈ dict_attrs)
  end.

(** [todo.updated_at = datetime.now()]; a dict has no such attribute. *)
Definition setattr_updated_at (v : todo_value) (ts : Z) : M todo_value :=
  match v with
  | Entity x => let x' := Todo.with_updated_at x ts in session_modify x';; mret (Entity x')
  | Mapping _ => raise AttributeError
  end.

(** Lexicographic code-point order: the order of the priority column
    under the C collation.  Under another database collation the rows
    come back in another order; no property below depends on it. *)
Fixpoint ustr_leb (a b : ustr) : bool :=
  match a, b with
  | [], _ => true
  | _ :: _, [] => false
  | x :: a', y :: b' => (x <? y)%N || ((x =? y)%N && ustr_leb a' b')
  end.

(** The dictionary [TodoCreate.model_dump(exclude_unset=True)]: [title]
    is required, the other keys are present only when the client sent
    them. *)
Record create_dict := mkCreateDict {
  cd_title : ustr;
  cd_description : option (option ustr);
  cd_is_completed : option bool;
  cd_priority : option ustr
}.

(** ** TodoRepository (src/app/infrastructure/repositories/todo_repository.py)

    [cache_enabled] is the constructor flag of the repository object. *)

Module TodoRepository.

Definition clear_cache : M unit := Redis.clear_pattern "todo:*";; mret ().

Definition get_by_id (cache_enabled : bool) (id : Z) : M (option todo_value) :=
  let cache_key := "todo:" +:+ pretty id in
  let query_database :=
    todo ← select_by_id id;
    match todo with
    | Some x => Redis.set cache_key (Todo.to_dict x) "todo" 300;; mret (Some (Entity x))
    | None => mret None
    end in
  if cache_enabled then
    cached ← Redis.get cache_key "todo";
    match cached with
    | Some v => mret (Some v)
    | None => query_database
    end
  else query_database.

(** The filter of [get_all]: [if is_completed is not None] and
    [if priority] (an empty string is falsy and adds no filter). *)
Definition matches (is_completed : option bool) (priority : option ustr)
    (x : Todo.t) : bool :=
  match is_completed with
  | Some b => Bool.eqb (Todo.is_completed x) b
  | None => true
  end &&
  match priority with
  | Some ((_ :: _) as p) => bool_decide (Todo.priority x = p)
  | _ => true
  end.

(** The ORDER BY clause; the order among equal keys, which SQL leaves
    open, is the stable order of a merge sort over the rows by id. *)
Definition order_leb (sort_by order : string) (x y : Todo.t) : bool :=
  let by_key (k : Todo.t -> Z) :=
    if String.eqb order "asc" then (k x <=? k y)%Z else (k y <=? k x)%Z in
  if String.eqb sort_by "priority" then
    (if String.eqb order "asc" then ustr_leb (Todo.priority x) (Todo.priority y)
     else ustr_leb (Todo.priority y) (Todo.priority x))
  else if String.eqb sort_by "created_at" then by_key Todo.created_at
  else if String.eqb sort_by "updated_at" then by_key Todo.updated_at
  else (Todo.created_at y <=? Todo.created_at x)%Z.

(** [query.offset(offset).limit(limit)] executed by PostgreSQL: both
    are bound as INTEGER (DataError outside 32 bits) and the server
    rejects a negative OFFSET or LIMIT; the rows come back through the
    identity map. *)
Definition execute_page (rows : list Todo.t) (offset limit : Z) : M (list Todo.t) :=
  if negb (int32_ok offset && int32_ok limit) || (offset <? 0)%Z || (limit <? 0)%Z
  then raise DBError
  else
    w ← get_world;
    mret (map (fun x => default x (w_dirty w !! Todo.id x))
              (take (Z.to_nat limit) (drop (Z.to_nat offset) rows))).

Definition get_all (page page_size : Z) (sort_by order : string)
    (is_completed : option bool) (priority : option ustr)
    : M (list Todo.t * Z) :=
  w ← get_world;
  let query :=
    @merge_sort _ (fun x y => order_leb sort_by order x y = true)
      (fun x y => decide (order_leb sort_by order x y = true))
      (filter (fun x => matches is_completed priority x = true)
              (map snd (map_to_list (w_db w)))) in
  (* count_query = select(Todo.id).select_from(query.subquery()): the
     FROM list holds the subquery and, for the column Todo.id, the table
     todos itself, so the statement reads the cross product of the two. *)
  match priority with
  | Some ((_ :: _) as p) => bind_text p
  | _ => mret ()
  end;;
  let total_result :=
    map (fun r => Todo.id r.2) (list_prod query (map snd (map_to_list (w_db w)))) in
  let total := Z.of_nat (length total_result) in
  let offset := ((page - 1) * page_size)%Z in
  todos ← execute_page query offset page_size;
  record_db_query;;
  mret (todos, total).

Definition create (todo_data : create_dict) : M Todo.t :=
  new_id ← nextval;
  ts ← now;
  let todo :=
    Todo.mk new_id (cd_title todo_data)
      (default None (cd_description todo_data))
      (default false (cd_is_completed todo_data))
      (default (u "medium") (cd_priority todo_data)) ts ts in
  session_add todo;;
  session_commit;;
  todo ← session_refresh new_id;
  clear_cache;;
  mret todo.

Definition update (cache_enabled : bool) (id : Z) (todo_data : list (string * pyval))
    : M (option todo_value) :=
  todo ← get_by_id cache_enabled id;
  match todo with
  | None => mret None
  | Some v =>
      let update_data :=
        filter (fun kv => hasattr v kv.1 = true /\ kv.1 <> "id") todo_data in
      match update_data with
      | [] => mret (Some v)
      | _ :: _ =>
          session_commit;;
          ts ← now;
          v' ← setattr_updated_at v ts;
          clear_cache;;
          mret (Some v')
      end
  end.

Definition delete (cache_enabled : bool) (id : Z) : M bool :=
  todo ← get_by_id cache_enabled id;
  match todo with
  | None => mret false
  | Some (Entity x) => session_delete x;; session_commit;; clear_cache;; mret true
  | Some (Mapping _) => raise DBError (* session.delete(dict): unmapped instance *)
  end.

Definition update_status (cache_enabled : bool) (id : Z) (is_completed : bool)
    : M (option todo_value) :=
  todo ← get_by_id cache_enabled id;
  match todo with
  | None => mret None
  | Some (Mapping _) => raise AttributeError
  | Some (Entity x) =>
      ts ← now;
      session_modify (Todo.with_updated_at (Todo.with_is_completed x is_completed) ts);;
      session_commit;;
      x' ← session_refresh id;
      clear_cache;;
      mret (Some (Entity x'))
  end.

End TodoRepository.

(** ** Pydantic schemas and priority order (src/app/domain/todo/schemas.py) *)

Module Schemas.

Definition PRIORITY_ORDER : gmap ustr Z :=
  <[u "high" := 3%Z]> (<[u "medium" := 2%Z]> (<[u "low" := 1%Z]> ∅)).

(** [PRIORITY_ORDER.get(priority, 1)]. *)
Definition get_priority_order (priority : ustr) : Z :=
  default 1%Z (PRIORITY_ORDER !! priority).

(** The code points with the Unicode White_Space property: what
    pydantic-core's [str_strip_whitespace] (Rust [str::trim]) removes. *)
Definition white_space : list N :=
  [9; 10; 11; 12; 13; 32; 133; 160; 5760; 8192; 8193; 8194; 8195; 8196; 8197;
   8198; 8199; 8200; 8201; 8202; 8232; 8233; 8239; 8287; 12288]%N.

Fixpoint lstrip (s : ustr) : ustr :=
  match s with
  | [] => []
  | c :: s' => if bool_decide (c ∈ white_space) then lstrip s' else s
  end.

Definition strip (s : ustr) : ustr := reverse (lstrip (reverse (lstrip s))).

(** [pattern="^(low|medium|high)$"]. *)
Definition valid_priorities : list ustr := [u "low"; u "medium"; u "high"].

(** A JSON request body for [POST /todos], field by field: [None] when
    the key is absent; [rq_extra] lists keys outside the schema.  Values
    of the wrong JSON type are rejected by pydantic and not represented. *)
Record create_request := mkCreateRequest {
  rq_title : option ustr;
  rq_description : option (option ustr);
  rq_is_completed : option bool;
  rq_priority : option ustr;
  rq_extra : list string
}.

(** A validated [TodoCreate]; [None] marks a field left unset. *)
Record TodoCreate := mkTodoCreate {
  tc_title : ustr;
  tc_description : option (option ustr);
  tc_is_completed : option bool;
  tc_priority : option ustr
}.

(** [TodoCreate.model_validate]: [extra="forbid"], and from [TodoBase]
    (whose config is merged into the subclass) [str_strip_whitespace],
    title length 1..255, description length at most 1000, priority
    matching the pattern.  [None] is the 422 validation error. *)
Definition validate_TodoCreate (r : create_request) : option TodoCreate :=
  match rq_extra r with
  | _ :: _ => None
  | [] =>
      t0 ← rq_title r;
      let title := strip t0 in
      if bool_decide (1 <= length title <= 255) then
        description ←
          match rq_description r with
          | Some (Some d) =>
              let d' := strip d in
              if bool_decide (length d' <= 1000) then Some (Some (Some d')) else None
          | Some None => Some (Some None)
          | None => Some None
          end;
        priority ←
          match rq_priority r with
          | Some p =>
              let p' := strip p in
              if bool_decide (p' ∈ valid_priorities) then Some (Some p') else None
          | None => Some None
          end;
        Some (mkTodoCreate title description (rq_is_completed r) priority)
      else None
  end.

(** [TodoCreate.model_dump(exclude_unset=True)]. *)
Definition model_dump (tc : TodoCreate) : create_dict :=
  mkCreateDict (tc_title tc) (tc_description tc) (tc_is_completed tc) (tc_priority tc).

(** A validated [TodoUpdate]: outer [None] = unset, inner [None] = null. *)
Record TodoUpdate := mkTodoUpdate {
  tu_title : option (option ustr);
  tu_description : option (option ustr);
  tu_is_completed : option (option bool);
  tu_priority : option (option ustr)
}.

Definition str_or_none (v : option ustr) : pyval :=
  match v with Some s => PyStr s | None => PyNone end.
Definition bool_or_none (v : option bool) : pyval :=
  match v with Some b => PyBool b | None => PyNone end.

(** [TodoUpdate.model_dump(exclude_unset=True)], in field order. *)
Definition update_model_dump (d : TodoUpdate) : list (string * pyval) :=
  match tu_title d with Some v => [("title", str_or_none v)] | None => [] end ++
  match tu_description d with Some v => [("description", str_or_none v)] | None => [] end ++
  match tu_is_completed d with Some v => [("is_completed", bool_or_none v)] | None => [] end ++
  match tu_priority d with Some v => [("priority", str_or_none v)] | None => [] end.

(** A JSON request body for [PUT /todos/{todo_id}]: per field [None] when
    the key is absent, [Some None] for [null]; [ur_extra] lists keys
    outside the schema. *)
Record update_request := mkUpdateRequest {
  ur_title : option (option ustr);
  ur_description : option (option ustr);
  ur_is_completed : option (option bool);
  ur_priority : option (option ustr);
  ur_extra : list string
}.

(** A constraint on an optional string field: [null] and an absent key
    are not checked. *)
Definition check_str (ok : ustr -> bool) (v : option (option ustr)) : bool :=
  match v with
  | Some (Some s) => ok s
  | _ => true
  end.

(** [TodoUpdate.model_validate]: [TodoUpdate] derives from [BaseModel],
    not [TodoBase], so its only config is [extra="forbid"] and strings
    are not stripped: title length 1..255, description length at most
    1000, priority matching the pattern. *)
Definition validate_TodoUpdate (r : update_request) : option TodoUpdate :=
  match ur_extra r with
  | _ :: _ => None
  | [] =>
      if check_str (fun s => bool_decide (1 <= length s <= 255)) (ur_title r) &&
         check_str (fun s => bool_decide (length s <= 1000)) (ur_description r) &&
         check_str (fun s => bool_decide (s ∈ valid_priorities)) (ur_priority r)
      then Some (mkTodoUpdate (ur_title r) (ur_description r) (ur_is_completed r)
                              (ur_priority r))
      else None
  end.

End Schemas.

(** ** TodoService (src/app/services/todo_service.py)

    The service builds [TodoRepository(session, cache_enabled=True)].
    Its [get_priority_order] is the one of schemas.py, the only
    definition of that name in the repository. *)

Module TodoService.

Definition cache_enabled : bool := true.

(** [todo.is_completed]; a dict has no such attribute. *)
Definition attr_is_completed (v : todo_value) : M bool :=
  match v with
  | Entity x => mret (Todo.is_completed x)
  | Mapping _ => raise AttributeError
  end.

Definition create_todo (todo_data : Schemas.TodoCreate) : M Todo.t :=
  labels business_operations_duration_seconds ["operation"];;
  let priority_order :=
    Schemas.get_priority_order (default (u "medium") (Schemas.tc_priority todo_data)) in
  todo ← TodoRepository.create (Schemas.model_dump todo_data);
  mret todo.

Definition get_todo (todo_id : Z) : M (option todo_value) :=
  labels business_operations_duration_seconds ["operation"];;
  TodoRepository.get_by_id cache_enabled todo_id.

Definition get_todos (page page_size : Z) (sort_by order : string)
    (is_completed : option bool) (priority : option ustr) : M (list Todo.t * Z) :=
  labels business_operations_duration_seconds ["operation"];;
  r ← TodoRepository.get_all page page_size sort_by order is_completed priority;
  let '(todos, total) := r in
  mret (todos, total).

Definition update_todo (todo_id : Z) (todo_data : Schemas.TodoUpdate)
    : M (option todo_value) :=
  labels business_operations_duration_seconds ["operation"];;
  TodoRepository.update cache_enabled todo_id (Schemas.update_model_dump todo_data).

(** [todos_deleted_total.inc()] has no labels and cannot raise. *)
Definition delete_todo (todo_id : Z) : M bool :=
  labels business_operations_duration_seconds ["operation"];;
  deleted ← TodoRepository.delete cache_enabled todo_id;
  mret deleted.

Definition toggle_todo_completion (todo_id : Z) : M (option todo_value) :=
  labels business_operations_duration_seconds ["operation"];;
  todo ← TodoRepository.get_by_id cache_enabled todo_id;
  match todo with
  | None => mret None
  | Some v =>
      completed ← attr_is_completed v;
      let new_status := negb completed in
      TodoRepository.update_status cache_enabled todo_id new_status
  end.

End TodoService.

(** ** The create endpoint (src/app/api/v1/endpoints/todos.py)

    FastAPI validates the body against [TodoCreate] before the handler
    runs and answers 422 on failure.  Tracing spans come from the
    default (non-recording) provider, since [setup_tracing] is never
    called, and are not modelled. *)

Module Endpoints.

Inductive response :=
| Created (x : Todo.t)
| UnprocessableEntity.

Definition http_requests_in_progress : metric :=
  mkMetric "http_requests_in_progress" ["method"; "endpoint"].

(** metrics.record_http_request_start: increments a gauge and returns
    [None], which the handler stores as [start_time]. *)
Definition record_http_request_start : M (option Z) :=
  labels http_requests_in_progress ["method"; "endpoint"];; mret None.

(** [(datetime.now() - start_time).total_seconds()]. *)
Definition elapsed (start_time : option Z) : M Z :=
  match start_time with
  | None => raise TypeError
  | Some s => t ← now; mret (t - s)%Z
  end.

Definition create_todo (body : Schemas.create_request) : M response :=
  match Schemas.validate_TodoCreate body with
  | None => mret UnprocessableEntity
  | Some todo_data =>
      start_time ← record_http_request_start;
      try_except
        (todo ← TodoService.create_todo todo_data;
         duration ← elapsed start_time;
         mret (Created todo))
        (fun e => duration ← elapsed start_time; raise e)
  end.

(** [TodoListResponse]. *)
Record list_response := mkListResponse {
  lr_items : list Todo.t;
  lr_total : Z;
  lr_page : Z;
  lr_page_size : Z;
  lr_has_next : bool;
  lr_has_previous : bool
}.

Definition build_list_response (page page_size : Z) (todos : list Todo.t) (total : Z)
    : list_response :=
  let has_next := (page * page_size <? total)%Z in
  let has_previous := (1 <? page)%Z in
  mkListResponse todos total page page_size has_next has_previous.

(** The [Query] constraints of [list_todos]: [page >= 1],
    [1 <= page_size <= 100] and the priority pattern. *)
Definition list_query_valid (page page_size : Z) (priority : option ustr) : bool :=
  (1 <=? page)%Z && (1 <=? page_size)%Z && (page_size <=? 100)%Z &&
  match priority with
  | Some p => bool_decide (p ∈ Schemas.valid_priorities)
  | None => true
  end.

Inductive list_reply :=
| ListPage (r : list_response)
| ListInvalid.

Definition list_todos (page page_size : Z) (sort_by order : string)
    (is_completed : option bool) (priority : option ustr) : M list_reply :=
  if list_query_valid page page_size priority then
    start_time ← record_http_request_start;
    try_except
      (r ← TodoService.get_todos page page_size sort_by order is_completed priority;
       let '(todos, total) := r in
       let response := build_list_response page page_size todos total in
       duration ← elapsed start_time;
       mret (ListPage response))
      (fun e => duration ← elapsed start_time; raise e)
  else mret ListInvalid.

(** Answers of the endpoints on one todo.  [raise HTTPException(404)]
    is re-raised past [except Exception] and answered by FastAPI; it is
    modelled as the reply [ItemNotFound] leaving the [try] block. *)
Inductive item_reply :=
| ItemOk (v : todo_value)
| ItemNoContent
| ItemNotFound
| ItemInvalid.

Definition get_todo (todo_id : Z) : M item_reply :=
  start_time ← record_http_request_start;
  try_except
    (todo ← TodoService.get_todo todo_id;
     match todo with
     | None => duration ← elapsed start_time; mret ItemNotFound
     | Some v => duration ← elapsed start_time; mret (ItemOk v)
     end)
    (fun e => duration ← elapsed start_time; raise e).

Definition update_todo (todo_id : Z) (body : Schemas.update_request) : M item_reply :=
  match Schemas.validate_TodoUpdate body with
  | None => mret ItemInvalid
  | Some todo_data =>
      start_time ← record_http_request_start;
      try_except
        (updated_todo ← TodoService.update_todo todo_id todo_data;
         match updated_todo with
         | None => duration ← elapsed start_time; mret ItemNotFound
         | Some v => duration ← elapsed start_time; mret (ItemOk v)
         end)
        (fun e => duration ← elapsed start_time; raise e)
  end.

Definition delete_todo (todo_id : Z) : M item_reply :=
  start_time ← record_http_request_start;
  try_except
    (deleted ← TodoService.delete_todo todo_id;
     if negb deleted then duration ← elapsed start_time; mret ItemNotFound
     else duration ← elapsed start_time; mret ItemNoContent)
    (fun e => duration ← elapsed start_time; raise e).

Definition toggle_todo_completion (todo_id : Z) : M item_reply :=
  start_time ← record_http_request_start;
  try_except
    (updated_todo ← TodoService.toggle_todo_completion todo_id;
     match updated_todo with
     | None => duration ← elapsed start_time; mret ItemNotFound
     | Some v => duration ← elapsed start_time; mret (ItemOk v)
     end)
    (fun e => duration ← elapsed start_time; raise e).

End Endpoints.

(** ** The listing [get_all] pages through *)

(** The filtered and ordered rows of the [query] in [get_all]. *)
Definition listing (w : world) (sort_by order : string) (is_completed : option bool)
    (priority : option ustr) : list Todo.t :=
  @merge_sort _ (fun x y => TodoRepository.order_leb sort_by order x y = true)
    (fun x y => decide (TodoRepository.order_leb sort_by order x y = true))
    (filter (fun x => TodoRepository.matches is_completed priority x = true)
            (map snd (map_to_list (w_db w)))).

(** A row as a query returns it through the identity map. *)
Definition identity_view (w : world) (x : Todo.t) : Todo.t :=
  default x (w_dirty w !! Todo.id x).

(** ** Concrete worlds *)

(** No rows, Redis client never initialised ([get_redis] is never
    called), clock at 100. *)
Definition w_empty : world := mkWorld ∅ ∅ ∅ ∅ 1%Z 100%Z false false ∅.

Definition sample_todo : Todo.t :=
  Todo.mk 1 (u "Test Todo") (Some (u "This is a test todo")) false (u "medium") 50 50.

(** The fixture [test_todo] committed, Redis reachable and holding the
    cached dict of row 1. *)
Definition w_one : world :=
  mkWorld {[1%Z := sample_todo]} ∅ ∅ ∅ 2%Z 100%Z true true
          {["todo:todo:1" := JsonText (Todo.to_dict sample_todo)]}.

(** The request body [{"title": "Test", "priority": " high"}]. *)
Definition body_spaced_high : Schemas.create_request :=
  Schemas.mkCreateRequest (Some (u "Test")) None None (Some (u " high")) [].

(** The update body [{"priority": "high", "title": "Updated Title"}] of
    test_bug2_update_applies_changes. *)
Definition update_body : Schemas.TodoUpdate :=
  Schemas.mkTodoUpdate (Some (Some (u "Updated Title"))) None None (Some (Some (u "high"))).

(** The creation payload [{"title": "Test", "priority": "medium"}]. *)
Definition create_body : Schemas.TodoCreate :=
  Schemas.mkTodoCreate (u "Test") None None (Some (u "medium")).

(** Modelled after the spec's words for [getAll]: a row matches when it
    equals the completion status if one is given and the priority if one
    is given. *)
Definition spec_matches (is_completed : option bool) (priority : option ustr)
    (x : Todo.t) : bool :=
  match is_completed with
  | Some b => Bool.eqb (Todo.is_completed x) b
  | None => true
  end &&
  match priority with
  | Some p => bool_decide (Todo.priority x = p)
  | None => true
  end.

Definition rows_matching (w : world) (is_completed : option bool)
    (priority : option ustr) : Z :=
  Z.of_nat (length (filter (fun x => spec_matches is_completed priority x = true)
                           (map snd (map_to_list (w_db w))))).

(** Redis client initialised but the server unreachable. *)
Definition w_redis_down : world := mkWorld ∅ ∅ ∅ ∅ 1%Z 100%Z true false ∅.


(** The update body [{"title": "Updated Title", "priority": "high"}] as
    sent over the wire. *)
Definition update_request_sample : Schemas.update_request :=
  Schemas.mkUpdateRequest (Some (Some (u "Updated Title"))) None None
                          (Some (Some (u "high"))) [].

(** Projections of [world] and its updaters, reduced. *)
Ltac fields := cbn [w_db w_dirty w_pending w_deleted w_next_id w_clock w_client w_redis_up w_redis
                    set_db set_next_id set_redis Todo.id].

(** A second committed row, of priority "high", beside the fixture. *)
Definition second_todo : Todo.t :=
  Todo.mk 2 (u "Second Todo") None false (u "high") 60 60.

Definition w_two : world :=
  mkWorld {[1%Z := sample_todo; 2%Z := second_todo]} ∅ ∅ ∅ 3%Z 100%Z true true ∅.

(** Whether the parameters of [get_all] bind: the priority filter, when
    one is applied, is storable text, and OFFSET and LIMIT are 32-bit
    and not negative. *)
Definition get_all_binds (page page_size : Z) (priority : option ustr) : bool :=
  match priority with
  | Some ((_ :: _) as p) => text_storable p
  | _ => true
  end &&
  negb (negb (int32_ok ((page - 1) * page_size) && int32_ok page_size) ||
        ((page - 1) * page_size <? 0)%Z || (page_size <? 0)%Z).

(** The row [TodoRepository.create] builds from [todo_data] in [w]. *)
Definition created_row (w : world) (todo_data : create_dict) : Todo.t :=
  Todo.mk (w_next_id w) (cd_title todo_data)
    (default None (cd_description todo_data))
    (default false (cd_is_completed todo_data))
    (default (u "medium") (cd_priority todo_data)) (w_clock w) (w_clock w).

(** The session of a fresh request: nothing added, modified or deleted. *)
Definition clean_session (w : world) : Prop :=
  w_dirty w = ∅ /\ w_pending w = ∅ /\ w_deleted w = ∅.

(** ** Sanity checks on concrete inputs *)

Example get_by_id_cached_raises :
  fst (TodoRepository.get_by_id true 1 w_one) = Raise ValueError.
Proof. vm_compute. reflexivity. Qed.

Example get_by_id_uncached_raises :
  fst (TodoRepository.get_by_id false 1 w_one) = Raise ValueError.
Proof. vm_compute. reflexivity. Qed.

Example get_by_id_absent :
  TodoRepository.get_by_id false 7 w_one = (Ok None, w_one).
Proof. vm_compute. reflexivity. Qed.

Example get_all_sample :
  fst (TodoRepository.get_all 1 20 "created_at" "desc" None (Some (u "medium")) w_one)
  = Ok ([sample_todo], 1%Z).
Proof. vm_compute. reflexivity. Qed.

(** ** General facts about the model *)

Lemma bind_apply {A B} (m : M A) (k : A -> M B) (w : world) :
  (m ≫= k) w = match m w with
               | (Ok a, w') => k a w'
               | (Raise e, w') => (Raise e, w')
               end.
Proof. reflexivity. Qed.

(** [cache_operations_in_progress] has no label names, so the
    [.labels(operation=...)] that [get] and [set] run before their [try]
    raises, whatever the key and the Redis state. *)
Lemma redis_get_raises (key prefix : string) (w : world) :
  Redis.get key prefix w = (Raise ValueError, w).
Proof. reflexivity. Qed.

Lemma redis_set_raises (key : string) (v : Todo.dict) (prefix : string)
    (ttl : Z) (w : world) :
  Redis.set key v prefix ttl w = (Raise ValueError, w).
Proof. reflexivity. Qed.


(** The outcome of [get_by_id]: with the cache enabled the cache lookup
    raises; with it disabled an id outside 32 bits fails to bind, a
    missing id gives [None] and a present one reaches [set], which
    raises. *)
Lemma get_by_id_cases (cache_enabled : bool) (i : Z) (w : world) :
  TodoRepository.get_by_id cache_enabled i w =
    if cache_enabled then (Raise ValueError, w)
    else if int32_ok i then
      match load_view w i with
      | Some _ => (Raise ValueError, w)
      | None => (Ok None, w)
      end
    else (Raise DBError, w).
Proof.
  destruct cache_enabled; [reflexivity|].
  unfold TodoRepository.get_by_id; cbv zeta.
  rewrite bind_apply. unfold select_by_id.
  destruct (int32_ok i); [|reflexivity].
  change ((w' ← get_world; mret (load_view w' i)) w)
    with ((Ok (load_view w i), w) : result (option Todo.t) * world).
  destruct (load_view w i); reflexivity.
Qed.

Lemma toggle_raises (i : Z) (w : world) :
  TodoService.toggle_todo_completion i w = (Raise ValueError, w).
Proof. reflexivity. Qed.

(** ** Claims *)

(** C2 (code_bug): on the fixture, whose Redis holds the dict of row 1
    under the key [get_by_id] reads, neither the cache path nor the
    store path of [get_by_id 1] returns a value: both raise ValueError.
    And the two paths hand back different representations: the hit
    branch returns [json.loads] of the cached text, a plain dict, which
    lacks the attribute [updated_at] that the mapped entity of the store
    path has. *)
Theorem cache_and_store_paths_differ :
  w_redis w_one !! Redis.get_key ("todo:" +:+ pretty 1%Z) "todo"
    = Some (JsonText (Todo.to_dict sample_todo)) /\
  fst (TodoRepository.get_by_id true 1 w_one) = Raise ValueError /\
  fst (TodoRepository.get_by_id false 1 w_one) = Raise ValueError /\
  json_loads (JsonText (Todo.to_dict sample_todo)) w_one
    = (Ok (Mapping (Todo.to_dict sample_todo)), w_one) /\
  hasattr (Mapping (Todo.to_dict sample_todo)) "updated_at" = false /\
  hasattr (Entity sample_todo) "updated_at" = true.
Proof. repeat split; vm_compute; reflexivity. Qed.

(** C3: toggling completion twice leaves [is_completed] of an existing
    todo at the value it had before the first toggle. *)
Theorem toggle_twice_restores (i : Z) (w : world) (x : Todo.t) :
  load_view w i = Some x ->
  option_map Todo.is_completed
    (load_view (snd (TodoService.toggle_todo_completion i
                      (snd (TodoService.toggle_todo_completion i w)))) i)
  = Some (Todo.is_completed x).
Proof.
  intros Hx.
  rewrite (toggle_raises i w); cbn [snd].
  rewrite (toggle_raises i w); cbn [snd].
  rewrite Hx; reflexivity.
Qed.

Lemma toggle_twice_restores_witness :
  option_map Todo.is_completed
    (load_view (snd (TodoService.toggle_todo_completion 1
                      (snd (TodoService.toggle_todo_completion 1 w_one)))) 1)
  = Some false.
Proof.
  apply (toggle_twice_restores 1 w_one sample_todo).
  vm_compute; reflexivity.
Defined.

(** C10: on an id absent from the store, [update], [delete] and
    [update_status] neither commit nor invalidate the cache: the whole
    world (rows, session, Redis) is left as it was. *)
Theorem not_found_mutations_leave_world (cache_enabled : bool) (i : Z)
    (d : list (string * pyval)) (b : bool) (w : world) :
  load_view w i = None ->
  snd (TodoRepository.update cache_enabled i d w) = w /\
  snd (TodoRepository.delete cache_enabled i w) = w /\
  snd (TodoRepository.update_status cache_enabled i b w) = w.
Proof.
  intros Hi.
  unfold TodoRepository.update, TodoRepository.delete, TodoRepository.update_status.
  rewrite !bind_apply, !get_by_id_cases, Hi.
  destruct cache_enabled; [|destruct (int32_ok i)]; repeat split.
Qed.

Lemma not_found_mutations_leave_world_witness :
  snd (TodoRepository.update false 7 [("title", PyStr (u "x"))] w_one) = w_one /\
  snd (TodoRepository.delete false 7 w_one) = w_one /\
  snd (TodoRepository.update_status false 7 true w_one) = w_one.
Proof.
  apply (not_found_mutations_leave_world false 7 _ true w_one).
  vm_compute; reflexivity.
Defined.

(** C5 (code_bug): with two committed rows, one of priority "medium" and
    one "high", the total of [get_all] is the size of the cross join of
    the filtered query with the table: filtering on "medium" reports 2
    where 1 row matches, and no filter reports 4 for 2 rows, whatever
    the page size. *)
Theorem get_all_total_cross_join :
  rows_matching w_two None (Some (u "medium")) = 1%Z /\
  fst (TodoRepository.get_all 1 20 "created_at" "desc" None (Some (u "medium")) w_two)
    = Ok ([sample_todo], 2%Z) /\
  rows_matching w_two None None = 2%Z /\
  fst (TodoRepository.get_all 1 20 "created_at" "desc" None None w_two)
    = Ok ([second_todo; sample_todo], 4%Z) /\
  fst (TodoRepository.get_all 2 1 "created_at" "desc" None None w_two)
    = Ok ([sample_todo], 4%Z).
Proof. repeat split; vm_compute; reflexivity. Qed.

(** C7: the ordering weight is 3 for "high", 2 for "medium", 1 for
    "low" and 1 for every other string. *)
Theorem priority_order_weights (p : ustr) :
  Schemas.get_priority_order p =
    if decide (p = u "high") then 3%Z
    else if decide (p = u "medium") then 2%Z
    else if decide (p = u "low") then 1%Z
    else 1%Z.
Proof.
  unfold Schemas.get_priority_order, Schemas.PRIORITY_ORDER.
  rewrite !lookup_insert, lookup_empty.
  repeat case_decide; subst; first [reflexivity | congruence | discriminate].
Qed.

(** C1 (code_bug): the update of test_bug2 on the fixture row 1 raises
    before any field is applied, through the service (cache enabled) and
    through a cache-disabled repository alike; the world, and so the
    row's title, is unchanged. *)
Theorem update_applies_nothing :
  TodoService.update_todo 1 update_body w_one = (Raise ValueError, w_one) /\
  TodoRepository.update false 1 (Schemas.update_model_dump update_body) w_one
    = (Raise ValueError, w_one) /\
  option_map Todo.title (w_db w_one !! 1%Z) = Some (u "Test Todo").
Proof. repeat split; vm_compute; reflexivity. Qed.

(** C4 (code_bug): on an empty store, with the repository's default
    [cache_enabled=True], [get_by_id], [update] and [delete] of id 1 all
    raise ValueError instead of answering [None] / [False]. *)
Theorem missing_id_operations_raise :
  fst (TodoRepository.get_by_id true 1 w_empty) = Raise ValueError /\
  fst (TodoRepository.update true 1 [("title", PyStr (u "x"))] w_empty) = Raise ValueError /\
  fst (TodoRepository.delete true 1 w_empty) = Raise ValueError.
Proof. repeat split; vm_compute; reflexivity. Qed.

(** C6 (code_bug): [create] of [{"title": "Test", "priority": "medium"}]
    succeeds and assigns id 1, but [get_by_id 1] right after raises,
    with the cache enabled and disabled alike. *)
Theorem create_then_get_by_id_raises :
  let '(r, w1) := TodoRepository.create (Schemas.model_dump create_body) w_empty in
  (r = Ok (Todo.mk 1 (u "Test") None false (u "medium") 100 100) /\
  fst (TodoRepository.get_by_id true 1 w1) = Raise ValueError /\
  fst (TodoRepository.get_by_id false 1 w1) = Raise ValueError).
Proof. vm_compute. repeat split. Qed.

(** C8 (code_bug): with the Redis server unreachable, [get] and [set]
    raise ValueError to their caller instead of answering [None] /
    [False]; [delete], which has no metric call, fails open. *)
Theorem cache_failure_propagates :
  Redis.get "todo:1" "todo" w_redis_down = (Raise ValueError, w_redis_down) /\
  Redis.set "todo:1" (Todo.to_dict sample_todo) "todo" 300 w_redis_down
    = (Raise ValueError, w_redis_down) /\
  Redis.delete "todo:1" "todo" w_redis_down = (Ok false, w_redis_down).
Proof. repeat split; vm_compute; reflexivity. Qed.

(** C9 (code_bug): the priority [" high"] is not one of the three
    values, yet [TodoCreate], which inherits [str_strip_whitespace] from
    [TodoBase], trims it to ["high"] and accepts it, and the endpoint
    inserts a row (the handler then fails on its timing code, after the
    commit).  [TodoUpdate] rejects the same value. *)
Lemma create_spaced_priority_counterexample :
  (u " high" ∉ Schemas.valid_priorities) /\
  Schemas.validate_TodoCreate body_spaced_high
    = Some (Schemas.mkTodoCreate (u "Test") None None (Some (u "high"))) /\
  fst (Endpoints.create_todo body_spaced_high w_empty) = Raise TypeError /\
  w_db w_empty !! 1%Z = None /\
  w_db (snd (Endpoints.create_todo body_spaced_high w_empty)) !! 1%Z
    = Some (Todo.mk 1 (u "Test") None false (u "high") 100 100) /\
  Schemas.validate_TodoUpdate
    (Schemas.mkUpdateRequest None None None (Some (Some (u " high"))) []) = None.
Proof.
  split; [apply (bool_decide_eq_false_1 (u " high" ∈ Schemas.valid_priorities));
          vm_compute; reflexivity|].
  repeat split; vm_compute; reflexivity.
Qed.

(** ** Further properties of the code *)

Lemma set_redis_same (w : world) : set_redis w (w_redis w) = w.
Proof. destruct w; reflexivity. Qed.
Lemma redis_conn_up (w : world) :
  w_client w = true -> w_redis_up w = true -> redis_conn w = (Ok (), w).
Proof. intros Hc Hu. unfold redis_conn. rewrite Hc, Hu. reflexivity. Qed.
Lemma redis_conn_down (w : world) :
  w_client w && w_redis_up w = false ->
  exists e, redis_conn w = (Raise e, w).
Proof.
  unfold redis_conn. destruct (w_client w), (w_redis_up w); cbn; try discriminate; eauto.
Qed.
Lemma redis_cmd_keys_up (pat : string) (w : world) :
  w_client w = true -> w_redis_up w = true ->
  redis_cmd_keys pat w = (Ok (filter (fun k => glob pat k = true) (map fst (map_to_list (w_redis w)))), w).
Proof. intros Hc Hu. unfold redis_cmd_keys. rewrite bind_apply, redis_conn_up by assumption. reflexivity. Qed.
Lemma redis_cmd_delete_up (ks : list string) (w : world) :
  w_client w = true -> w_redis_up w = true ->
  redis_cmd_delete ks w =
    (Ok (Z.of_nat (length (filter (fun k => is_Some (w_redis w !! k)) ks))),
     set_redis w (filter (fun kv => kv.1 ∉ ks) (w_redis w))).
Proof. intros Hc Hu. unfold redis_cmd_delete. rewrite bind_apply, redis_conn_up by assumption. reflexivity. Qed.
Lemma in_keys_lookup (m : gmap string blob) (k : string) :
  In k (map fst (map_to_list m)) <-> is_Some (m !! k).
Proof.
  rewrite in_map_iff. split.
  - intros [[k' v] [Heq Hin]]. cbn in Heq; subst k'. exists v.
    apply elem_of_map_to_list, list_elem_of_In, Hin.
  - intros [v Hv]. exists (k, v). split; [reflexivity|].
    apply list_elem_of_In, elem_of_map_to_list, Hv.
Qed.
Lemma filter_all {A} (P : A -> Prop) `{forall x, Decision (P x)} (l : list A) :
  (forall x, x ∈ l -> P x) -> filter P l = l.
Proof.
  induction l as [|x l IH]; intros Hall; [reflexivity|].
  rewrite filter_cons_True by (apply Hall; left).
  f_equal. apply IH. intros y Hy. apply Hall. right. exact Hy.
Qed.
Lemma clear_pattern_eq (pat : string) (w : world) :
  Redis.clear_pattern pat w =
  if w_client w && w_redis_up w then
    (Ok (Z.of_nat (length (filter (fun k => glob pat k = true) (map fst (map_to_list (w_redis w)))))),
     set_redis w (filter (fun kv => glob pat kv.1 = false) (w_redis w)))
  else (Ok 0%Z, w).
Proof.
  unfold Redis.clear_pattern, try_except. cbv beta.
  destruct (w_client w && w_redis_up w) eqn:Hup.
  - apply andb_true_iff in Hup as [Hc Hu].
    rewrite bind_apply, redis_cmd_keys_up by assumption.
    assert (Hkeys : forall k, k ∈ filter (fun k => glob pat k = true) (map fst (map_to_list (w_redis w)))
                      <-> glob pat k = true /\ is_Some (w_redis w !! k)).
    { intros k. rewrite list_elem_of_filter, list_elem_of_In, in_keys_lookup. reflexivity. }
    destruct (filter _ _) as [|k ks] eqn:E.
    + cbn. rewrite map_filter_id; [rewrite set_redis_same; reflexivity|].
      intros i x Hi. cbn. destruct (glob pat i) eqn:G; [|reflexivity].
      exfalso. apply (not_elem_of_nil i). apply Hkeys. split; [exact G| eexists; exact Hi].
    + cbv iota beta. rewrite bind_apply, redis_cmd_delete_up by assumption. cbn [fst snd].
      unfold mret, M_ret. cbv beta iota zeta.
      rewrite <- E. f_equal; [f_equal; f_equal; f_equal; apply filter_all; intros i Hi; rewrite E in Hi; apply Hkeys, Hi|].
      f_equal. rewrite E. apply map_filter_ext. intros i x Hi. cbn.
      rewrite Hkeys. destruct (glob pat i); split; intros H.
      * exfalso. apply H. split; [reflexivity|eexists; exact Hi].
      * discriminate.
      * reflexivity.
      * intros [? _]; discriminate.
  - rewrite bind_apply. destruct (redis_conn_down w Hup) as [e He].
    unfold redis_cmd_keys. rewrite bind_apply, He. reflexivity.
Qed.
Lemma glob_star (s : string) : glob "*" s = true.
Proof. induction s as [|c s IH]; [reflexivity|]. simpl. exact IH. Qed.

Lemma glob_literal_step (c : ascii) (p q s : string) :
  Ascii.eqb c "*"%char = false -> Ascii.eqb c "?"%char = false ->
  (forall s, glob p s = String.prefix q s) ->
  glob (String c p) s = String.prefix (String c q) s.
Proof.
  intros H1 H2 IH. cbn [glob]. rewrite H1. destruct s as [|x s]; [reflexivity|].
  rewrite H2, orb_false_l, IH. cbn [String.prefix].
  destruct (Ascii.eqb_spec x c), (ascii_dec c x); subst; try reflexivity; congruence.
Qed.

(** The invalidation pattern ["todo:*"] selects exactly the keys that
    start with ["todo:"]. *)
Lemma glob_todo_star (s : string) : glob "todo:*" s = String.prefix "todo:" s.
Proof.
  do 5 (apply glob_literal_step; [reflexivity|reflexivity|clear s; intros s]).
  rewrite glob_star. destruct s; reflexivity.
Qed.

Lemma clear_cache_eq (w : world) :
  TodoRepository.clear_cache w =
  (Ok (), if w_client w && w_redis_up w
          then set_redis w (filter (fun kv => glob "todo:*" kv.1 = false) (w_redis w))
          else w).
Proof.
  unfold TodoRepository.clear_cache. rewrite bind_apply, clear_pattern_eq.
  destruct (_ && _); reflexivity.
Qed.

Lemma filter_not_in_single (m : gmap string blob) (k : string) :
  filter (fun kv => kv.1 ∉ [k]) m = delete k m.
Proof.
  apply map_eq. intros j. rewrite map_lookup_filter.
  destruct (decide (j = k)) as [->|Hne].
  - rewrite lookup_delete_eq. destruct (m !! k); cbn; [|reflexivity].
    rewrite option_guard_False; [reflexivity|]. intros H. apply H. left.
  - rewrite lookup_delete_ne by congruence. destruct (m !! j); cbn; [|reflexivity].
    rewrite option_guard_True; [reflexivity|]. intros H. apply list_elem_of_singleton in H. congruence.
Qed.

(** X3: [Redis.delete] never raises: with Redis reachable it removes the
    prefixed key and answers [True]; with no client or an unreachable
    server it answers [False] and changes nothing. *)
Theorem redis_delete_fails_open (key prefix : string) (w : world) :
  Redis.delete key prefix w =
    if w_client w && w_redis_up w
    then (Ok true, set_redis w (delete (Redis.get_key key prefix) (w_redis w)))
    else (Ok false, w).
Proof.
  unfold Redis.delete, try_except. cbv beta zeta.
  destruct (w_client w && w_redis_up w) eqn:Hup.
  - apply andb_true_iff in Hup as [Hc Hu].
    rewrite bind_apply, redis_cmd_delete_up by assumption. cbn.
    rewrite filter_not_in_single. reflexivity.
  - rewrite bind_apply. unfold redis_cmd_delete. rewrite bind_apply.
    destruct (redis_conn_down w Hup) as [e ->]. reflexivity.
Qed.

(** X4: [Redis.exists] never raises and never changes the world: it
    answers whether the prefixed key is present when Redis is reachable,
    and [False] otherwise. *)
Theorem redis_exists_fails_open (key prefix : string) (w : world) :
  Redis.exists_ key prefix w =
    (Ok (w_client w && w_redis_up w &&
         bool_decide (is_Some (w_redis w !! Redis.get_key key prefix))), w).
Proof.
  unfold Redis.exists_, try_except. cbv beta zeta.
  destruct (w_client w && w_redis_up w) eqn:Hup.
  - apply andb_true_iff in Hup as [Hc Hu].
    unfold redis_cmd_exists. rewrite !bind_apply, redis_conn_up by assumption.
    unfold mbind, M_bind, get_world, mret, M_ret. cbn.
    destruct (w_redis w !! _); reflexivity.
  - rewrite bind_apply. unfold redis_cmd_exists. rewrite bind_apply.
    destruct (redis_conn_down w Hup) as [e ->]. reflexivity.
Qed.
Lemma lookup_filter_bool (m : gmap string blob) (f : string -> bool) (k : string) :
  filter (fun kv => f kv.1 = false) m !! k = if f k then None else m !! k.
Proof. rewrite map_lookup_filter. destruct (m !! k); cbn; destruct (f k); reflexivity. Qed.

Lemma clear_cache_lookup (w : world) (k : string) :
  w_redis (snd (TodoRepository.clear_cache w)) !! k =
  if w_client w && w_redis_up w && String.prefix "todo:" k then None else w_redis w !! k.
Proof.
  rewrite clear_cache_eq. cbn [snd]. destruct (w_client w && w_redis_up w); cbn [andb]; [|reflexivity].
  cbn [w_redis set_redis]. rewrite (lookup_filter_bool _ (glob "todo:*")), glob_todo_star.
  reflexivity.
Qed.

(** X2: [TodoRepository.clear_cache] never raises; with Redis reachable
    it removes every key starting with ["todo:"], in particular the key
    [get_by_id] caches a todo under, whatever its id, and keeps every
    other key with its value; otherwise nothing changes. *)
Theorem clear_cache_drops_todo_keys (w : world) :
  exists kv, TodoRepository.clear_cache w = (Ok (), set_redis w kv) /\
    (forall k, kv !! k = if w_client w && w_redis_up w && String.prefix "todo:" k then None
                         else w_redis w !! k) /\
    (forall i : Z, w_client w && w_redis_up w = true ->
       kv !! Redis.get_key ("todo:" +:+ pretty i) "todo" = None).
Proof.
  exists (w_redis (snd (TodoRepository.clear_cache w))).
  assert (Hk := clear_cache_lookup w).
  split; [|split; [exact Hk|]].
  - rewrite clear_cache_eq. destruct (_ && _); [reflexivity|]. cbn. rewrite set_redis_same. reflexivity.
  - intros i Hup. rewrite Hk, Hup. reflexivity.
Qed.

Lemma get_all_eq (page ps : Z) (sb o : string) (ic : option bool) (pr : option ustr) (w : world) :
  TodoRepository.get_all page ps sb o ic pr w =
  (if get_all_binds page ps pr
   then Ok (map (identity_view w)
                (take (Z.to_nat ps) (drop (Z.to_nat ((page - 1) * ps)) (listing w sb o ic pr))),
            Z.of_nat (length (listing w sb o ic pr) * size (w_db w)))
   else Raise DBError, w).
Proof.
  unfold TodoRepository.get_all, get_all_binds, listing. rewrite bind_apply.
  change (get_world w) with ((Ok w, w) : result world * world).
  cbv beta iota zeta. rewrite bind_apply.
  assert (Hrest : forall b : bool,
    ((if b then (mret () : M unit) else raise DBError) w = (if b then Ok () else Raise DBError, w))).
  { intros []; reflexivity. }
  destruct pr as [[|c p]|]; cbv iota;
    [change ((mret () : M unit) w) with ((Ok (), w) : result unit * world)
    |unfold bind_text; rewrite Hrest; destruct (text_storable (c :: p)); cbn [andb]
    |change ((mret () : M unit) w) with ((Ok (), w) : result unit * world)];
    try reflexivity; cbn [andb];
    unfold TodoRepository.execute_page;
    (destruct (_ || _)%bool; [reflexivity|]);
    cbn [negb];
    unfold mret at 1, M_ret at 1; cbv beta iota zeta; rewrite bind_apply;
    change (record_db_query w) with ((Ok (), w) : result unit * world);
    cbv beta iota;
    rewrite length_map, length_prod, length_map, length_map_to_list; reflexivity.
Qed.

(** X5: Whatever the id, the data and the cache flag, [update], [delete]
    and [update_status] of the repository either answer "not found" or
    raise (ValueError from the cache metric, or DBError for an id that
    does not fit the INTEGER column), and never change the world: no
    update, deletion or status change is ever committed. *)
Theorem repository_mutations_never_commit (ce : bool) (i : Z) (d : list (string * pyval))
    (b : bool) (w : world) :
  (TodoRepository.update ce i d w = (Ok None, w) \/
   TodoRepository.update ce i d w = (Raise ValueError, w) \/
   TodoRepository.update ce i d w = (Raise DBError, w)) /\
  (TodoRepository.delete ce i w = (Ok false, w) \/
   TodoRepository.delete ce i w = (Raise ValueError, w) \/
   TodoRepository.delete ce i w = (Raise DBError, w)) /\
  (TodoRepository.update_status ce i b w = (Ok None, w) \/
   TodoRepository.update_status ce i b w = (Raise ValueError, w) \/
   TodoRepository.update_status ce i b w = (Raise DBError, w)).
Proof.
  unfold TodoRepository.update, TodoRepository.delete, TodoRepository.update_status.
  rewrite !bind_apply, !get_by_id_cases.
  destruct ce; [|destruct (int32_ok i); [destruct (load_view w i)|]];
    repeat split; first [left; reflexivity | right; left; reflexivity | right; right; reflexivity].
Qed.

(** X7: Every service operation on one todo ([get_todo], [update_todo],
    [delete_todo], [toggle_todo_completion]) raises ValueError for every
    id and leaves the world unchanged. *)
Theorem service_by_id_operations_raise (i : Z) (d : Schemas.TodoUpdate) (w : world) :
  TodoService.get_todo i w = (Raise ValueError, w) /\
  TodoService.update_todo i d w = (Raise ValueError, w) /\
  TodoService.delete_todo i w = (Raise ValueError, w) /\
  TodoService.toggle_todo_completion i w = (Raise ValueError, w).
Proof. repeat split. Qed.


(** X9: [GET /todos] answers 422 when the query parameters break their
    constraints and otherwise raises TypeError (from its timing code);
    the world is left unchanged either way. *)
Theorem list_endpoint_answers_500 (page ps : Z) (sb o : string) (ic : option bool)
    (pr : option ustr) (w : world) :
  Endpoints.list_todos page ps sb o ic pr w =
    (if Endpoints.list_query_valid page ps pr then Raise TypeError
     else Ok Endpoints.ListInvalid, w).
Proof.
  unfold Endpoints.list_todos. destruct (Endpoints.list_query_valid page ps pr); [|reflexivity].
  rewrite bind_apply.
  change (Endpoints.record_http_request_start w) with ((Ok None, w) : result (option Z) * world).
  cbv beta iota. unfold try_except. unfold TodoService.get_todos.
  rewrite !bind_apply.
  change (labels business_operations_duration_seconds ["operation"] w) with ((Ok (), w) : result unit * world).
  cbv beta iota. rewrite bind_apply, get_all_eq.
  destruct (get_all_binds page ps pr); reflexivity.
Qed.

(** X6: [get_by_id] never changes the world: it never fills the cache
    and leaves the session and the rows as they were. *)
Theorem get_by_id_never_writes (cache_enabled : bool) (i : Z) (w : world) :
  snd (TodoRepository.get_by_id cache_enabled i w) = w.
Proof.
  rewrite get_by_id_cases.
  destruct cache_enabled; [|destruct (int32_ok i); [destruct (load_view w i)|]]; reflexivity.
Qed.

Lemma nextval_eq (w : world) :
  nextval w = if (w_next_id w <=? 2147483647)%Z
              then (Ok (w_next_id w), set_next_id w (w_next_id w + 1)%Z)
              else (Raise DBError, w).
Proof.
  unfold nextval, mbind, M_bind, mret, M_ret, get_world, put_world, raise.
  destruct (_ <=? _)%Z; reflexivity.
Qed.
Lemma now_eq (w : world) : now w = (Ok (w_clock w), w).
Proof. reflexivity. Qed.
Lemma session_add_eq (x : Todo.t) (w : world) :
  session_add x w = (Ok (), set_db w (w_db w) (<[Todo.id x := x]> (w_dirty w))
                                   ({[Todo.id x]} ∪ w_pending w) (w_deleted w)).
Proof. reflexivity. Qed.
Lemma session_commit_eq (w : world) :
  session_commit w =
    if forallb (fun kv => row_storable kv.2) (map_to_list (w_dirty w)) &&
       forallb (fun i => negb (bool_decide (is_Some (w_db w !! i)))) (elements (w_pending w))
    then (Ok (), set_db w (filter (fun kv => kv.1 ∉ w_deleted w) (w_dirty w ∪ w_db w)) ∅ ∅ ∅)
    else (Raise DBError, w).
Proof.
  unfold session_commit, mbind, M_bind, mret, M_ret, get_world, put_world, raise.
  destruct (_ && _); reflexivity.
Qed.
Lemma session_refresh_eq (i : Z) (w : world) :
  session_refresh i w =
    match w_db w !! i with
    | Some x => (Ok x, set_db w (w_db w) (delete i (w_dirty w)) (w_pending w) (w_deleted w))
    | None => (Raise DBError, w)
    end.
Proof.
  unfold session_refresh, mbind, M_bind, mret, M_ret, get_world, put_world, raise.
  destruct (w_db w !! i); reflexivity.
Qed.

(** [create] in a fresh session: it fails when the sequence is
    exhausted, or when the flush cannot write the row; otherwise the row
    is committed and the cache cleared. *)
Lemma create_cases (d : create_dict) (w : world) :
  clean_session w ->
  TodoRepository.create d w =
    if (w_next_id w <=? 2147483647)%Z then
      if row_storable (created_row w d) &&
         negb (bool_decide (is_Some (w_db w !! w_next_id w)))
      then (Ok (created_row w d),
            snd (TodoRepository.clear_cache
                   (set_db (set_next_id w (w_next_id w + 1)%Z)
                           (<[w_next_id w := created_row w d]> (w_db w)) ∅ ∅ ∅)))
      else (Raise DBError,
            set_db (set_next_id w (w_next_id w + 1)%Z) (w_db w)
                   {[w_next_id w := created_row w d]} {[w_next_id w]} ∅)
    else (Raise DBError, w).
Proof.
  intros (Hd & Hp & Hdel).
  destruct w as [db dirty pend del nid clk c up kv]; cbn [w_dirty w_pending w_deleted] in Hd, Hp, Hdel.
  subst dirty pend del.
  unfold TodoRepository.create, created_row. fields.
  rewrite bind_apply, nextval_eq. fields.
  destruct (nid <=? 2147483647)%Z; [|reflexivity].
  rewrite bind_apply, now_eq. cbv beta iota zeta. fields.
  set (x := Todo.mk nid _ _ _ _ clk clk).
  rewrite bind_apply, session_add_eq. cbv beta iota. fields.
  rewrite bind_apply, session_commit_eq. fields.
  replace (Todo.id x) with nid by reflexivity.
  rewrite insert_empty, map_to_list_singleton, !union_empty_r_L, elements_singleton.
  cbn [forallb]. rewrite !andb_true_r. cbn [snd].
  destruct (row_storable x && negb (bool_decide (is_Some (db !! nid)))); [|reflexivity].
  cbv beta iota.
  rewrite map_filter_id by (intros ? ? _; apply not_elem_of_empty).
  rewrite <- insert_union_singleton_l.
  rewrite bind_apply, session_refresh_eq. fields. rewrite lookup_insert_eq, delete_empty.
  rewrite bind_apply, !clear_cache_eq. reflexivity.
Qed.

(** X10: In a fresh session, when the sequence is not exhausted, no row
    holds the next id, and every text of the new row can be stored in
    its column (no NUL, no lone surrogate, within the column length),
    [TodoRepository.create] returns the new row with that id, the title,
    the defaults for unset fields (no description, not completed,
    "medium") and both timestamps at the clock; the row is committed
    next to the existing ones, the sequence advances by one and the
    session is left empty. *)
Theorem create_commits_new_row (d : create_dict) (w : world) :
  clean_session w ->
  (w_next_id w <= 2147483647)%Z ->
  w_db w !! w_next_id w = None ->
  row_storable (created_row w d) = true ->
  exists w', TodoRepository.create d w = (Ok (created_row w d), w') /\
    w_db w' = <[w_next_id w := created_row w d]> (w_db w) /\
    w_next_id w' = (w_next_id w + 1)%Z /\
    clean_session w'.
Proof.
  intros Hc Hmax Hfree Hrow. rewrite (create_cases d w Hc).
  apply Z.leb_le in Hmax. rewrite Hmax, Hrow, Hfree. cbn.
  eexists. split; [reflexivity|].
  rewrite clear_cache_eq. cbn [snd].
  destruct (_ && _); cbn; repeat split; reflexivity.
Qed.

Lemma create_commits_new_row_witness :
  exists w', TodoRepository.create (Schemas.model_dump create_body) w_empty
    = (Ok (Todo.mk 1 (u "Test") None false (u "medium") 100 100), w').
Proof.
  assert (Hc : clean_session w_empty) by (repeat split).
  destruct (create_commits_new_row (Schemas.model_dump create_body) w_empty Hc
              ltac:(vm_compute; discriminate) ltac:(vm_compute; reflexivity)
              ltac:(vm_compute; reflexivity)) as (w' & H & _).
  exists w'. exact H.
Defined.


Lemma lstrip_cons_keep (c : N) (t : ustr) :
  c ∉ Schemas.white_space -> Schemas.lstrip (c :: t) = c :: t.
Proof. intros H. cbn [Schemas.lstrip]. rewrite bool_decide_eq_false_2 by exact H. reflexivity. Qed.

Lemma lstrip_shape (s : ustr) :
  Schemas.lstrip s = [] \/
  exists c t, Schemas.lstrip s = c :: t /\ c ∉ Schemas.white_space.
Proof.
  induction s as [|c s IH]; cbn [Schemas.lstrip]; [left; reflexivity|].
  case_bool_decide; [exact IH|right; eauto].
Qed.

Lemma lstrip_idem (s : ustr) : Schemas.lstrip (Schemas.lstrip s) = Schemas.lstrip s.
Proof.
  destruct (lstrip_shape s) as [->|(c & t & -> & H)]; [reflexivity|].
  apply lstrip_cons_keep, H.
Qed.

Lemma lstrip_suffix (s : ustr) : exists p : ustr, s = (p ++ Schemas.lstrip s)%list.
Proof.
  induction s as [|c s [p Hp]]; cbn [Schemas.lstrip]; [exists []; reflexivity|].
  case_bool_decide.
  - exists (c :: p). cbn. f_equal. exact Hp.
  - exists []. reflexivity.
Qed.

(** Stripping is idempotent: a stripped string has no leading or
    trailing white space left. *)
Lemma strip_idem (s : ustr) : Schemas.strip (Schemas.strip s) = Schemas.strip s.
Proof.
  unfold Schemas.strip.
  assert (Hb : forall a, a = Schemas.lstrip s ->
            Schemas.lstrip (reverse (Schemas.lstrip (reverse a)))
            = reverse (Schemas.lstrip (reverse a))).
  { intros a Ea.
    destruct (lstrip_suffix (reverse a)) as [p Hp].
    destruct (Schemas.lstrip (reverse a)) as [|y b'] eqn:Eb; [reflexivity|].
    assert (Ha : a = (reverse (y :: b') ++ reverse p)%list).
    { rewrite <- reverse_app, <- Hp, reverse_involutive. reflexivity. }
    destruct (reverse (y :: b')) as [|z r] eqn:Er.
    { apply (f_equal length) in Er. rewrite length_reverse in Er. discriminate. }
    destruct (lstrip_shape s) as [Ha0|(c & t & Ha0 & Hc)]; rewrite <- Ea in Ha0.
    - rewrite Ha0 in Ha. discriminate.
    - rewrite Ha0 in Ha. cbn in Ha. injection Ha as -> _. apply lstrip_cons_keep, Hc. }
  rewrite (Hb _ eq_refl), reverse_involutive, lstrip_idem. reflexivity.
Qed.


Lemma validate_create_fields (r : Schemas.create_request) (tc : Schemas.TodoCreate) :
  Schemas.validate_TodoCreate r = Some tc ->
  Schemas.rq_extra r = [] /\
  Schemas.strip (Schemas.tc_title tc) = Schemas.tc_title tc /\
  1 <= length (Schemas.tc_title tc) <= 255 /\
  (forall s, Schemas.tc_description tc = Some (Some s) -> length s <= 1000) /\
  default (u "medium") (Schemas.tc_priority tc) ∈ Schemas.valid_priorities.
Proof.
  unfold Schemas.validate_TodoCreate.
  destruct (Schemas.rq_extra r); [|discriminate].
  destruct (Schemas.rq_title r) as [t0|]; [|discriminate]. cbn.
  case_bool_decide as Hlen; [|discriminate].
  destruct (Schemas.rq_description r) as [[d|]|]; cbn;
    [case_bool_decide as Hd; [|discriminate]; cbn| |];
    (destruct (Schemas.rq_priority r) as [p|]; cbn;
     [case_bool_decide as Hp; [|discriminate]; cbn|]);
    intros Heq; injection Heq as <-; cbn;
    (split; [reflexivity|]); (split; [apply strip_idem|]); (split; [exact Hlen|]);
    (split; [intros s Hs; try discriminate; injection Hs as <-; exact Hd|]);
    first [exact Hp | apply list_elem_of_In; cbn; right; left; reflexivity].
Qed.

(** A validated body fits its columns; only its characters can still
    be refused by the database. *)
Lemma validated_row_storable (r : Schemas.create_request) (tc : Schemas.TodoCreate) (w : world) :
  Schemas.validate_TodoCreate r = Some tc ->
  text_storable (Schemas.tc_title tc) = true ->
  (forall s, Schemas.tc_description tc = Some (Some s) -> text_storable s = true) ->
  row_storable (created_row w (Schemas.model_dump tc)) = true.
Proof.
  intros Hv Ht Hd.
  destruct (validate_create_fields r tc Hv) as (_ & _ & Hl & Hdl & Hp).
  unfold row_storable, created_row, Schemas.model_dump.
  cbn [Todo.title Todo.description Todo.priority cd_title cd_description cd_priority].
  revert Hp. generalize (default (u "medium") (Schemas.tc_priority tc)) as p. intros p Hp.
  rewrite Ht. cbn [andb].
  assert (Hl' : (length (Schemas.tc_title tc) <=? 255)%nat = true) by (apply Nat.leb_le; lia).
  rewrite Hl'. cbn [andb].
  assert (Hdesc : match default None (Schemas.tc_description tc) with
                  | Some d => text_storable d && (length d <=? 1000)%nat
                  | None => true end = true).
  { destruct (Schemas.tc_description tc) as [[s|]|]; cbn; [|reflexivity|reflexivity].
    rewrite (Hd s eq_refl). apply Nat.leb_le, Hdl. reflexivity. }
  rewrite Hdesc. cbn [andb].
  apply list_elem_of_In in Hp. cbn in Hp.
  destruct Hp as [<-|[<-|[<-|[]]]]; vm_compute; reflexivity.
Qed.

Lemma create_endpoint_eq (body : Schemas.create_request) (tc : Schemas.TodoCreate) (w : world) :
  Schemas.validate_TodoCreate body = Some tc ->
  Endpoints.create_todo body w =
    (Raise TypeError, snd (TodoRepository.create (Schemas.model_dump tc) w)).
Proof.
  intros H. unfold Endpoints.create_todo. rewrite H.
  rewrite bind_apply.
  change (Endpoints.record_http_request_start w) with ((Ok None, w) : result (option Z) * world).
  cbv beta iota. unfold try_except, TodoService.create_todo.
  rewrite !bind_apply.
  change (labels business_operations_duration_seconds ["operation"] w)
    with ((Ok (), w) : result unit * world).
  cbv beta iota zeta. rewrite bind_apply.
  destruct (TodoRepository.create _ w) as [[x|e] w']; reflexivity.
Qed.

(** X12: In a fresh session, when the sequence is not exhausted and no
    row holds the next id, [POST /todos] on a body that passes
    validation and whose title and description hold no NUL and no lone
    surrogate raises TypeError, yet the new row is committed under the
    next id next to the existing rows, with a priority among low, medium
    and high and a stripped title of 1 to 255 code points. *)
Theorem create_endpoint_commits_then_fails (body : Schemas.create_request)
    (tc : Schemas.TodoCreate) (w : world) :
  Schemas.validate_TodoCreate body = Some tc ->
  clean_session w ->
  (w_next_id w <= 2147483647)%Z ->
  w_db w !! w_next_id w = None ->
  text_storable (Schemas.tc_title tc) = true ->
  (forall s, Schemas.tc_description tc = Some (Some s) -> text_storable s = true) ->
  fst (Endpoints.create_todo body w) = Raise TypeError /\
  exists x, w_db (snd (Endpoints.create_todo body w)) = <[w_next_id w := x]> (w_db w) /\
    Todo.priority x ∈ Schemas.valid_priorities /\
    Schemas.strip (Todo.title x) = Todo.title x /\
    1 <= length (Todo.title x) <= 255.
Proof.
  intros Hv Hc Hmax Hfree Ht Hd. rewrite (create_endpoint_eq body tc w Hv).
  split; [reflexivity|].
  rewrite (create_cases _ w Hc).
  apply Z.leb_le in Hmax. rewrite Hmax, (validated_row_storable body tc w Hv Ht Hd), Hfree.
  cbn [andb negb bool_decide is_Some_dec].
  cbn [negb snd]. rewrite clear_cache_eq. cbn [snd].
  exists (created_row w (Schemas.model_dump tc)).
  destruct (validate_create_fields body tc Hv) as (_ & Hs & Hl & _ & Hp).
  split; [destruct (_ && _); reflexivity|].
  cbn. split; [exact Hp|]. split; [exact Hs|exact Hl].
Qed.

Lemma create_endpoint_commits_then_fails_witness :
  fst (Endpoints.create_todo body_spaced_high w_empty) = Raise TypeError /\
  exists x, w_db (snd (Endpoints.create_todo body_spaced_high w_empty)) = {[1%Z := x]} /\
    Todo.priority x ∈ Schemas.valid_priorities.
Proof.
  assert (Hv : Schemas.validate_TodoCreate body_spaced_high
               = Some (Schemas.mkTodoCreate (u "Test") None None (Some (u "high"))))
    by (vm_compute; reflexivity).
  assert (Hc : clean_session w_empty) by (repeat split).
  assert (Hmax : (w_next_id w_empty <= 2147483647)%Z) by (vm_compute; discriminate).
  assert (Hfree : w_db w_empty !! w_next_id w_empty = None) by reflexivity.
  assert (Ht : text_storable (u "Test") = true) by (vm_compute; reflexivity).
  destruct (create_endpoint_commits_then_fails _ _ w_empty Hv Hc Hmax Hfree Ht
              ltac:(intros s Hs; discriminate Hs)) as (Hf & x & Hx & Hp & _).
  split; [exact Hf|]. exists x. split; [exact Hx|exact Hp].
Defined.

Lemma get_all_binds_spec (page ps : Z) (pr : option ustr) :
  get_all_binds page ps pr = true <->
  (forall p, pr = Some p -> text_storable p = true) /\
  (0 <= (page - 1) * ps <= 2147483647)%Z /\ (0 <= ps <= 2147483647)%Z.
Proof.
  unfold get_all_binds, int32_ok.
  rewrite andb_true_iff, negb_true_iff, !orb_false_iff, negb_false_iff, !andb_true_iff,
    !Z.leb_le, !Z.ltb_ge.
  assert (Hp : match pr with Some ((_ :: _) as p) => text_storable p | _ => true end = true <->
               forall p, pr = Some p -> text_storable p = true).
  { destruct pr as [[|c p]|]; split; intros H.
    - intros q Hq. injection Hq as <-. reflexivity.
    - reflexivity.
    - intros q Hq. injection Hq as <-. exact H.
    - apply H. reflexivity.
    - intros q Hq. discriminate.
    - reflexivity. }
  rewrite Hp. split; intros (H1 & H2); (split; [exact H1|]); lia.
Qed.

Lemma length_listing (w : world) (sb o : string) (ic : option bool) (pr : option ustr) :
  length (listing w sb o ic pr) =
  length (filter (fun x => TodoRepository.matches ic pr x = true) (map snd (map_to_list (w_db w)))).
Proof. unfold listing. apply Permutation_length, merge_sort_Permutation. Qed.

Lemma length_listing_le (w : world) (sb o : string) (ic : option bool) (pr : option ustr) :
  length (listing w sb o ic pr) <= size (w_db w).
Proof.
  rewrite length_listing, <- length_map_to_list, <- (length_map snd (map_to_list (w_db w))).
  apply length_filter.
Qed.

(** X13: [get_all] never changes the world, and it raises DBError
    exactly when a parameter cannot be bound: the priority filter holds
    a NUL or a lone surrogate, or the offset [(page - 1) * page_size] or
    the limit is negative or does not fit a 32-bit INTEGER. *)
Theorem get_all_fails_exactly_on_bad_binds (page ps : Z) (sb o : string) (ic : option bool)
    (pr : option ustr) (w : world) :
  snd (TodoRepository.get_all page ps sb o ic pr w) = w /\
  (fst (TodoRepository.get_all page ps sb o ic pr w) = Raise DBError <->
   ~ ((forall p, pr = Some p -> text_storable p = true) /\
      (0 <= (page - 1) * ps <= 2147483647)%Z /\ (0 <= ps <= 2147483647)%Z)).
Proof.
  rewrite get_all_eq. cbn [fst snd]. split; [reflexivity|].
  rewrite <- get_all_binds_spec.
  destruct (get_all_binds page ps pr); split; intros H.
  - discriminate H.
  - exfalso. apply H. reflexivity.
  - discriminate.
  - reflexivity.
Qed.

(** X14: When every parameter binds, [get_all] succeeds without changing
    the world, and its page holds [min page_size (n - offset)] items
    (none past the end), [n] being the number of rows that pass the
    filters. *)
Theorem get_all_page_length (page ps : Z) (sb o : string) (ic : option bool)
    (pr : option ustr) (w : world) :
  (forall p, pr = Some p -> text_storable p = true) ->
  (0 <= (page - 1) * ps <= 2147483647)%Z -> (0 <= ps <= 2147483647)%Z ->
  exists items total,
    TodoRepository.get_all page ps sb o ic pr w = (Ok (items, total), w) /\
    Z.of_nat (length items) =
      Z.min ps (Z.max 0 (Z.of_nat (length (filter (fun x => TodoRepository.matches ic pr x = true)
                                                  (map snd (map_to_list (w_db w)))))
                          - (page - 1) * ps)).
Proof.
  intros Hp Ho Hs.
  assert (Hb : get_all_binds page ps pr = true) by (apply get_all_binds_spec; auto).
  rewrite get_all_eq, Hb.
  eexists _, _. split; [reflexivity|].
  rewrite length_map, length_take, length_drop, length_listing. lia.
Qed.

Lemma get_all_page_length_witness :
  exists items total,
    TodoRepository.get_all 1 20 "created_at" "desc" None None w_one = (Ok (items, total), w_one) /\
    Z.of_nat (length items) =
      Z.min 20 (Z.max 0 (Z.of_nat (length (filter (fun x => TodoRepository.matches None None x = true)
                                                  (map snd (map_to_list (w_db w_one)))))
                          - (1 - 1) * 20)).
Proof.
  apply (get_all_page_length 1 20 "created_at" "desc" None None w_one).
  - intros p Hp. discriminate Hp.
  - lia.
  - lia.
Defined.





(** X17: When page [page + 1] of [get_all] is not empty, the response
    built from page [page] has [has_next] set. *)
Theorem next_page_nonempty_sets_has_next (page ps : Z) (sb o : string) (ic : option bool)
    (pr : option ustr) (w w1 w2 : world) (items items' : list Todo.t) (total total' : Z) :
  TodoRepository.get_all page ps sb o ic pr w = (Ok (items, total), w1) ->
  TodoRepository.get_all (page + 1) ps sb o ic pr w = (Ok (items', total'), w2) ->
  items' <> [] ->
  Endpoints.lr_has_next (Endpoints.build_list_response page ps items total) = true.
Proof.
  rewrite !get_all_eq.
  destruct (get_all_binds page ps pr); [|discriminate].
  destruct (get_all_binds (page + 1) ps pr) eqn:Hb2; [|discriminate].
  intros H1 H2 Hne. injection H1 as _ <- _. injection H2 as <- _ _.
  apply get_all_binds_spec in Hb2. destruct Hb2 as (_ & Ho & Hs).
  replace (page + 1 - 1)%Z with page in * by lia.
  assert (Hlen : Z.to_nat (page * ps) < length (listing w sb o ic pr)).
  { destruct (decide (Z.to_nat (page * ps) < length (listing w sb o ic pr))) as [Hl|Hl]; [exact Hl|].
    exfalso. apply Hne. rewrite drop_ge by lia. rewrite take_nil. reflexivity. }
  pose proof (length_listing_le w sb o ic pr) as Hle.
  unfold Endpoints.build_list_response. cbn [Endpoints.lr_has_next]. apply Z.ltb_lt. nia.
Qed.

Lemma next_page_nonempty_sets_has_next_witness :
  Endpoints.lr_has_next (Endpoints.build_list_response 1 1 [second_todo] 4) = true.
Proof.
  assert (H1 : TodoRepository.get_all 1 1 "created_at" "desc" None None w_two
               = (Ok ([second_todo], 4%Z), w_two)) by (vm_compute; reflexivity).
  assert (H2 : TodoRepository.get_all (1 + 1) 1 "created_at" "desc" None None w_two
               = (Ok ([sample_todo], 4%Z), w_two)) by (vm_compute; reflexivity).
  exact (next_page_nonempty_sets_has_next 1 1 "created_at" "desc" None None w_two w_two w_two
           [second_todo] [sample_todo] 4 4 H1 H2 ltac:(discriminate)).
Defined.






